(** * A pydantic-backed SQLAlchemy column type and its Alembic rendering hook

    Shallow embedding of [main.py] (the [BasePydanticType] type decorator with
    its two subclasses [PydanticJSON] and [PydanticString]) and of
    [migrations/env.py] (the [render_item] hook and the two migration runners).

    The three libraries the code glues together (pydantic, SQLAlchemy,
    Alembic) are not part of the repository: their entry points are taken as
    operations of an interface ([Pydantic], [SQLAlchemy], [Alembic]) and every
    theorem is proved for all implementations of it. *)

From Stdlib Require Import String List ZArith Bool.
Import ListNotations.
Open Scope string_scope.

Set Implicit Arguments.
Set Warnings "-register-all".

(** ** Python values *)

(** [typing.Any] as far as it crosses the adapter: what a serializer may hand
    to the database driver and what the driver hands back. *)
Inductive Any : Type :=
| PyNone
| PyBool (b : bool)
| PyInt (n : Z)
| PyStr (s : string)
| PyList (xs : list Any)
| PyDict (items : list (string * Any)).

(** [value is None] *)
Definition is_None (value : Any) : bool :=
  match value with
  | PyNone => true
  | _ => false
  end.

(** A call either returns or raises. *)
Inductive Outcome (E A : Type) : Type :=
| Returns (a : A)
| Raises (e : E).

Arguments Returns {E A} a.
Arguments Raises {E A} e.

Definition omap {E A B : Type} (f : A -> B) (r : Outcome E A) : Outcome E B :=
  match r with
  | Returns a => Returns (f a)
  | Raises e => Raises e
  end.

(** Computations that call into foreign code: the calls made, in order, and
    the outcome. *)
Definition Eff (Ev E A : Type) : Type := (list Ev * Outcome E A)%type.

Definition ret {Ev E A : Type} (a : A) : Eff Ev E A := ([], Returns a).

Definition bind {Ev E A B : Type} (c : Eff Ev E A) (k : A -> Eff Ev E B)
  : Eff Ev E B :=
  match c with
  | (tr, Returns a) => let (tr', r) := k a in ((tr ++ tr')%list, r)
  | (tr, Raises e) => (tr, Raises e)
  end.

(** One foreign call: logged, then its outcome. *)
Definition invoke {Ev E A : Type} (ev : Ev) (r : Outcome E A) : Eff Ev E A :=
  ([ev], r).

Definition calls {Ev E A : Type} (c : Eff Ev E A) : list Ev := fst c.
Definition outcome {Ev E A : Type} (c : Eff Ev E A) : Outcome E A := snd c.

Declare Scope eff_scope.
Delimit Scope eff_scope with eff.
Notation "x <- c ;; k" := (bind c (fun x => k))
  (at level 61, c at next level, right associativity) : eff_scope.
Notation "c ;;; k" := (bind c (fun _ => k))
  (at level 61, right associativity) : eff_scope.

(** A Python callable object.  [x or y] looks at the truth value of [x], so
    the object carries it: functions, lambdas and bound methods are always
    true, an instance of a class with [__call__] is false when its [__bool__]
    returns [False] or its [__len__] returns [0]. *)
Record Callable (E A B : Type) : Type := {
  call : A -> Outcome E B;
  truthy : bool
}.

Definition function {E A B : Type} (f : A -> Outcome E B) : Callable E A B :=
  {| call := f; truthy := true |}.

(** [x or default] for an optional callable [x] ([None] is false). *)
Definition py_or {E A B : Type} (x : option (Callable E A B))
  (default : Callable E A B) : Callable E A B :=
  match x with
  | Some f => if truthy f then f else default
  | None => default
  end.

(** ** SQLAlchemy types and dialects *)

(** The [TypeEngine] classes the code names, and any other one. *)
Inductive TypeEngineClass : Type :=
| JSON
| JSONB
| String_
| OtherType (qualname : string).

(** A constructed [TypeEngine]: its class and the arguments it was built with. *)
Record TypeEngine : Type := {
  engine_class : TypeEngineClass;
  engine_args : list Any;
  engine_kwargs : list (string * Any)
}.

(** [TypeEngine[Any] | type[TypeEngine[Any]]] *)
Inductive Impl : Type :=
| TypeClass (c : TypeEngineClass)
| TypeInstance (t : TypeEngine).

(** [callable(impl)]: a class is callable, a [TypeEngine] object is not. *)
Definition callable (impl : Impl) : bool :=
  match impl with
  | TypeClass _ => true
  | TypeInstance _ => false
  end.

(** [impl()]: calling a class with no arguments builds an instance.  (Calling a
    [TypeEngine] object is a [TypeError]; both call sites guard with
    [callable], so that branch is never taken.) *)
Definition call_no_args (impl : Impl) : Impl :=
  match impl with
  | TypeClass c =>
      TypeInstance {| engine_class := c; engine_args := []; engine_kwargs := [] |}
  | TypeInstance t => TypeInstance t
  end.

Definition is_instance (impl : Impl) : bool := negb (callable impl).

Definition impl_class (impl : Impl) : TypeEngineClass :=
  match impl with
  | TypeClass c => c
  | TypeInstance t => engine_class t
  end.

(** [sqlalchemy.Dialect]: the two members the code reads. *)
Record Dialect : Type := {
  name : string;
  type_descriptor : Impl -> TypeEngine
}.

(** ** The libraries' entry points *)

(** [TypeAdapter(pydantic_model_type)] *)
Inductive TypeAdapterOf (ModelType : Type) : Type :=
| TypeAdapter (type : ModelType).

(** pydantic, as the adapter calls it.  [Model] are the model instances,
    [ModelType] the model classes ([type[ModelT]]). *)
Class Pydantic (Exn Model ModelType : Type) : Type := {
  (** [model.model_dump(mode=mode)] *)
  model_dump : Model -> string -> Outcome Exn Any;
  (** [model.model_dump_json()], a [str] *)
  model_dump_json : Model -> Outcome Exn string;
  (** [type_adapter.validate_python(value)] *)
  validate_python : TypeAdapterOf ModelType -> Any -> Outcome Exn Model;
  (** [pydantic_model_type.model_validate_json(value)] *)
  model_validate_json : ModelType -> Any -> Outcome Exn Model
}.

(** SQLAlchemy's [TypeDecorator], the base class of the adapter. *)
Class SQLAlchemy (Exn : Type) : Type := {
  (** [super().__init__] with the positional and keyword arguments: from the
      class attribute [impl] (if the class has one) and the arguments, the
      value it leaves in [self.impl]. *)
  TypeDecorator__init__ :
    option Impl -> list Any -> list (string * Any) -> Outcome Exn Impl;
  (** the [impl_instance] property, read off [self.impl] *)
  TypeDecorator_impl_instance : Impl -> TypeEngine
}.

(** Alembic's [AutogenContext]: the member [render_item] reads. *)
Record AutogenContext : Type := {
  autogen_dialect : option Dialect
}.

(** Alembic's [alembic.autogenerate.render._repr_type]. *)
Class Alembic (Exn : Type) : Type := {
  _repr_type : Impl -> AutogenContext -> Outcome Exn string
}.

(** What [render_item] returns: source text, or [False] to ask for the default
    rendering. *)
Inductive RenderResult : Type :=
| Rendered (source : string)
| PyFalse.

(** The classes of [main.py]; [type(self)] of an adapter object. *)
Inductive PydanticTypeClass : Type :=
| BasePydanticType
| PydanticJSON
| PydanticString.

(** The class attribute [impl]: [PydanticJSON.impl = JSON],
    [PydanticString.impl = String]; [BasePydanticType] only annotates it. *)
Definition class_impl (cls : PydanticTypeClass) : option Impl :=
  match cls with
  | BasePydanticType => None
  | PydanticJSON => Some (TypeClass JSON)
  | PydanticString => Some (TypeClass String_)
  end.

(** The class attribute [cache_ok]. *)
Definition cache_ok (cls : PydanticTypeClass) : option bool :=
  match cls with
  | BasePydanticType => None
  | PydanticJSON => Some true
  | PydanticString => Some true
  end.

Section MainPy.

Context {Exn Model ModelType : Type}.
Context {pydantic : Pydantic Exn Model ModelType}.
Context {sqlalchemy : SQLAlchemy Exn}.

(** An adapter object: its class and its instance attributes. *)
Record PydanticType : Type := {
  class_of : PydanticTypeClass;
  impl : Impl;
  _pydantic_model_type : ModelType;
  _serializer : Callable Exn Model Any;
  _deserializer : Callable Exn Any Model
}.

(** [BasePydanticType.type_adapter] (a cached property of [self], which it
    reads only through [self._pydantic_model_type]). *)
Definition type_adapter (pydantic_model_type : ModelType)
  : TypeAdapterOf ModelType :=
  TypeAdapter pydantic_model_type.

(** [BasePydanticType._default_serializer] *)
Definition BasePydanticType_default_serializer (model : Model)
  : Outcome Exn Any :=
  model_dump model "json".

(** [BasePydanticType._default_deserializer] *)
Definition BasePydanticType_default_deserializer
  (pydantic_model_type : ModelType) (value : Any) : Outcome Exn Model :=
  validate_python (type_adapter pydantic_model_type) value.

(** [PydanticString._default_serializer] *)
Definition PydanticString_default_serializer (model : Model)
  : Outcome Exn Any :=
  omap PyStr (model_dump_json model).

(** [PydanticString._default_deserializer] *)
Definition PydanticString_default_deserializer
  (pydantic_model_type : ModelType) (value : Any) : Outcome Exn Model :=
  model_validate_json pydantic_model_type value.

(** [self._default_serializer], resolved on the class of [self]:
    [PydanticString] overrides it, [PydanticJSON] inherits it. *)
Definition _default_serializer (cls : PydanticTypeClass)
  : Model -> Outcome Exn Any :=
  match cls with
  | PydanticString => PydanticString_default_serializer
  | BasePydanticType | PydanticJSON => BasePydanticType_default_serializer
  end.

(** [self._default_deserializer], resolved on the class of [self]. *)
Definition _default_deserializer (cls : PydanticTypeClass)
  (pydantic_model_type : ModelType) : Any -> Outcome Exn Model :=
  match cls with
  | PydanticString => PydanticString_default_deserializer pydantic_model_type
  | BasePydanticType | PydanticJSON =>
      BasePydanticType_default_deserializer pydantic_model_type
  end.

(** [BasePydanticType.__init__], run for an object of class [cls]. *)
Definition __init__ (cls : PydanticTypeClass) (pydantic_model_type : ModelType)
  (args : list Any)
  (serializer : option (Callable Exn Model Any))
  (deserializer : option (Callable Exn Any Model))
  (kwargs : list (string * Any)) : Outcome Exn PydanticType :=
  match TypeDecorator__init__ (class_impl cls) args kwargs with
  | Raises e => Raises e
  | Returns impl0 =>
      Returns
        {| class_of := cls;
           impl := impl0;
           _pydantic_model_type := pydantic_model_type;
           _serializer := py_or serializer (function (_default_serializer cls));
           _deserializer :=
             py_or deserializer
               (function (_default_deserializer cls pydantic_model_type)) |}
  end.

(** [BasePydanticType.get_dialect_type_impl] *)
Definition BasePydanticType_get_dialect_type_impl (self : PydanticType)
  (dialect : Dialect) : Impl :=
  impl self.

(** [PydanticJSON.get_dialect_type_impl] *)
Definition PydanticJSON_get_dialect_type_impl (self : PydanticType)
  (dialect : Dialect) : Impl :=
  if name dialect =? "postgresql" then TypeClass JSONB else impl self.

(** [self.get_dialect_type_impl(dialect)], resolved on the class of [self]. *)
Definition get_dialect_type_impl (self : PydanticType) (dialect : Dialect)
  : Impl :=
  match class_of self with
  | PydanticJSON => PydanticJSON_get_dialect_type_impl self dialect
  | BasePydanticType | PydanticString =>
      BasePydanticType_get_dialect_type_impl self dialect
  end.

(** The calls the adapter makes into code it does not own. *)
Inductive Event : Type :=
| Call_serializer (model : Model)
| Call_deserializer (value : Any)
| Call_type_descriptor (dialect : Dialect) (typeobj : Impl).

(** [BasePydanticType.load_dialect_impl] *)
Definition load_dialect_impl (self : PydanticType) (dialect : Dialect)
  : Eff Event Exn TypeEngine :=
  let impl := get_dialect_type_impl self dialect in
  let typeobj := if callable impl then call_no_args impl else impl in
  invoke (Call_type_descriptor dialect typeobj)
    (Returns (type_descriptor dialect typeobj)).

(** [BasePydanticType.process_bind_param] *)
Definition process_bind_param (self : PydanticType) (value : option Model)
  (dialect : Dialect) : Eff Event Exn Any :=
  match value with
  | None => ret PyNone
  | Some model => invoke (Call_serializer model) (call (_serializer self) model)
  end.

(** [BasePydanticType.process_result_value] *)
Definition process_result_value (self : PydanticType) (value : Any)
  (dialect : Dialect) : Eff Event Exn (option Model) :=
  if is_None value then ret None
  else invoke (Call_deserializer value)
         (omap Some (call (_deserializer self) value)).

End MainPy.

Arguments PydanticType : clear implicits.
Arguments Event : clear implicits.

Section EnvPy.

Context {Exn Model ModelType : Type}.
Context {pydantic : Pydantic Exn Model ModelType}.
Context {sqlalchemy : SQLAlchemy Exn}.
Context {alembic : Alembic Exn}.

(** [sqlalchemy.MetaData], [Engine] and [Connection] objects; [env.py] only
    passes them on. *)
Context {MetaData Engine Connection : Type}.

Local Open Scope eff_scope.

(** The [obj: Any] Alembic hands to [render_item]: a column type, which may be
    one of the adapters, or any other schema item. *)
Inductive PyObject : Type :=
| Obj_PydanticType (self : PydanticType Exn Model ModelType)
| Obj_TypeEngine (t : TypeEngine)
| Obj_other (repr : string).

(** [isinstance(obj, BasePydanticType)], with the object viewed as one. *)
Definition as_BasePydanticType (obj : PyObject)
  : option (PydanticType Exn Model ModelType) :=
  match obj with
  | Obj_PydanticType self => Some self
  | Obj_TypeEngine _ | Obj_other _ => None
  end.

Definition isinstance_BasePydanticType (obj : PyObject) : bool :=
  match as_BasePydanticType obj with
  | Some _ => true
  | None => false
  end.

(** [render_item] *)
Definition render_item (type_ : string) (obj : PyObject)
  (autogen_context : AutogenContext) : Outcome Exn RenderResult :=
  match (if type_ =? "type" then as_BasePydanticType obj else None) with
  | Some self =>
      match autogen_dialect autogen_context with
      | Some dialect =>
          let impl := get_dialect_type_impl self dialect in
          omap Rendered
            (_repr_type (if callable impl then call_no_args impl else impl)
               autogen_context)
      | None =>
          omap Rendered
            (_repr_type
               (TypeInstance (TypeDecorator_impl_instance (impl self)))
               autogen_context)
      end
  | None => Returns PyFalse
  end.

(** [sqlalchemy.pool] classes. *)
Inductive PoolClass : Type :=
| NullPool.

(** The keyword arguments of a [context.configure] call; [None] for a keyword
    the call does not pass. *)
Record ConfigureKwargs : Type := {
  kw_url : option (option string);
  kw_connection : option Connection;
  kw_target_metadata : option MetaData;
  kw_literal_binds : option bool;
  kw_render_item :
    option (string -> PyObject -> AutogenContext -> Outcome Exn RenderResult);
  kw_dialect_opts : option (list (string * string))
}.

(** The calls [env.py] makes into Alembic, SQLAlchemy and [logging]. *)
Inductive EnvEvent : Type :=
| Call_set_main_option (option_name value : string)
| Call_fileConfig (fname : string)
| Call_engine_from_config (configuration : list (string * string))
    (prefix : string) (poolclass : PoolClass)
| Call_connect (connectable : Engine)
| Call_configure (kw : ConfigureKwargs)
| Call_begin_transaction
| Call_run_migrations
| Exit_transaction
| Exit_connection.

(** What the running Alembic command gives the script: [alembic.context], its
    [config], and the outcomes of the calls made through them. *)
Record EnvironmentContext : Type := {
  config_file_name : option string;
  config_ini_section : string;
  get_main_option : string -> option string;
  get_section : string -> list (string * string) -> list (string * string);
  is_offline_mode : bool;
  configure : ConfigureKwargs -> Outcome Exn unit;
  begin_transaction : Outcome Exn unit;
  run_migrations : Outcome Exn unit;
  engine_from_config :
    list (string * string) -> string -> PoolClass -> Outcome Exn Engine;
  connect : Engine -> Outcome Exn Connection
}.

(** [with enter as x: body]: the exit runs whether the body returns or raises. *)
Definition with_ {A B : Type} (enter : Eff EnvEvent Exn A) (exit_ : EnvEvent)
  (body : A -> Eff EnvEvent Exn B) : Eff EnvEvent Exn B :=
  match enter with
  | (tr, Returns x) => let (tr', r) := body x in ((tr ++ tr' ++ [exit_])%list, r)
  | (tr, Raises e) => (tr, Raises e)
  end.

(** [target_metadata = Base.metadata] *)
Variable target_metadata : MetaData.

(** The keywords of the [context.configure] call of [run_migrations_offline]. *)
Definition offline_kwargs (url : option string) : ConfigureKwargs :=
  {| kw_url := Some url;
     kw_connection := None;
     kw_target_metadata := Some target_metadata;
     kw_literal_binds := Some true;
     kw_render_item := Some render_item;
     kw_dialect_opts := Some [("paramstyle", "named")] |}.

(** The keywords of the [context.configure] call of [run_migrations_online]. *)
Definition online_kwargs (connection : Connection) : ConfigureKwargs :=
  {| kw_url := None;
     kw_connection := Some connection;
     kw_target_metadata := Some target_metadata;
     kw_literal_binds := None;
     kw_render_item := Some render_item;
     kw_dialect_opts := None |}.

(** [run_migrations_offline] *)
Definition run_migrations_offline (context : EnvironmentContext)
  : Eff EnvEvent Exn unit :=
  let url := get_main_option context "sqlalchemy.url" in
  invoke (Call_configure (offline_kwargs url))
    (configure context (offline_kwargs url)) ;;;
  with_ (invoke Call_begin_transaction (begin_transaction context))
    Exit_transaction
    (fun _ => invoke Call_run_migrations (run_migrations context)).

(** [run_migrations_online] *)
Definition run_migrations_online (context : EnvironmentContext)
  : Eff EnvEvent Exn unit :=
  let configuration := get_section context (config_ini_section context) [] in
  connectable <-
    invoke (Call_engine_from_config configuration "sqlalchemy." NullPool)
      (engine_from_config context configuration "sqlalchemy." NullPool) ;;
  with_ (invoke (Call_connect connectable) (connect context connectable))
    Exit_connection
    (fun connection =>
       invoke (Call_configure (online_kwargs connection))
         (configure context (online_kwargs connection)) ;;;
       with_ (invoke Call_begin_transaction (begin_transaction context))
         Exit_transaction
         (fun _ => invoke Call_run_migrations (run_migrations context))).

(** The module body of [env.py], top to bottom. *)
Definition env_py (context : EnvironmentContext) : Eff EnvEvent Exn unit :=
  invoke (Call_set_main_option "sqlalchemy.url" "sqlite:///database.db")
    (Returns tt) ;;;
  match config_file_name context with
  | Some fname => invoke (Call_fileConfig fname) (Returns tt)
  | None => ret tt
  end ;;;
  if is_offline_mode context then run_migrations_offline context
  else run_migrations_online context.

(** The [context.configure] calls among the calls made. *)
Fixpoint configure_calls (tr : list EnvEvent) : list ConfigureKwargs :=
  match tr with
  | [] => []
  | Call_configure kw :: tr' => kw :: configure_calls tr'
  | _ :: tr' => configure_calls tr'
  end.

End EnvPy.

Arguments PyObject : clear implicits.
Arguments ConfigureKwargs : clear implicits.
Arguments EnvEvent : clear implicits.
Arguments EnvironmentContext : clear implicits.

(** ** Sample implementations

    Small stand-ins for the three libraries, so that the adapter can be run
    on concrete inputs. *)

Inductive PyExc : Type :=
| ValidationError
| AssertionError.

(** A pydantic root model over [bool | None]
    ([class Flag(RootModel[bool | None])]): an instance is its root, and it
    serializes as its root does: [Flag(None).model_dump(mode=...)] is [None]
    and [Flag(None).model_dump_json()] is the text [null]. *)
Module Flag.

Record t : Type := RootModel { root : option bool }.

Inductive type : Type :=
| Flag.

Definition dump (model : t) : Any :=
  match root model with
  | Some b => PyBool b
  | None => PyNone
  end.

Definition dump_json (model : t) : string :=
  match root model with
  | Some true => "true"
  | Some false => "false"
  | None => "null"
  end.

Definition validate (value : Any) : Outcome PyExc t :=
  match value with
  | PyBool b => Returns (RootModel (Some b))
  | PyNone => Returns (RootModel None)
  | _ => Raises ValidationError
  end.

Definition validate_json (value : Any) : Outcome PyExc t :=
  match value with
  | PyStr s =>
      if s =? "true" then Returns (RootModel (Some true))
      else if s =? "false" then Returns (RootModel (Some false))
      else if s =? "null" then Returns (RootModel None)
      else Raises ValidationError
  | _ => Raises ValidationError
  end.

End Flag.

Definition Flag_pydantic : Pydantic PyExc Flag.t Flag.type :=
  {| model_dump := fun model _ => Returns (Flag.dump model);
     model_dump_json := fun model => Returns (Flag.dump_json model);
     validate_python := fun _ value => Flag.validate value;
     model_validate_json := fun _ value => Flag.validate_json value |}.

(** [TypeDecorator.__init__] building [self.impl] from the class attribute, and
    [impl_instance] giving it back. *)
Definition sample_sqlalchemy : SQLAlchemy PyExc :=
  {| TypeDecorator__init__ := fun class_attr args kwargs =>
       match class_attr with
       | None => Raises AssertionError
       | Some (TypeClass c) =>
           Returns
             (TypeInstance
                {| engine_class := c; engine_args := args;
                   engine_kwargs := kwargs |})
       | Some (TypeInstance t) => Returns (TypeInstance t)
       end;
     TypeDecorator_impl_instance := fun impl =>
       match impl with
       | TypeInstance t => t
       | TypeClass c =>
           {| engine_class := c; engine_args := []; engine_kwargs := [] |}
       end |}.

Definition sample_repr (c : TypeEngineClass) : string :=
  match c with
  | JSON => "sa.JSON()"
  | JSONB => "postgresql.JSONB()"
  | String_ => "sa.String()"
  | OtherType qualname => qualname
  end.

Definition sample_alembic : Alembic PyExc :=
  {| _repr_type := fun impl _ => Returns (sample_repr (impl_class impl)) |}.

Definition sample_type_descriptor (typeobj : Impl) : TypeEngine :=
  match typeobj with
  | TypeInstance t => t
  | TypeClass c =>
      {| engine_class := c; engine_args := []; engine_kwargs := [] |}
  end.

Definition sqlite : Dialect :=
  {| name := "sqlite"; type_descriptor := sample_type_descriptor |}.

Definition postgresql : Dialect :=
  {| name := "postgresql"; type_descriptor := sample_type_descriptor |}.

(** [PydanticJSON(Flag)] and [PydanticString(Flag)], as [__init__] leaves them. *)
Definition Flag_json_type : PydanticType PyExc Flag.t Flag.type :=
  {| class_of := PydanticJSON;
     impl :=
       TypeInstance
         {| engine_class := JSON; engine_args := []; engine_kwargs := [] |};
     _pydantic_model_type := Flag.Flag;
     _serializer :=
       function (_default_serializer (pydantic := Flag_pydantic) PydanticJSON);
     _deserializer :=
       function
         (_default_deserializer (pydantic := Flag_pydantic) PydanticJSON
            Flag.Flag) |}.

Definition Flag_string_type : PydanticType PyExc Flag.t Flag.type :=
  {| class_of := PydanticString;
     impl :=
       TypeInstance
         {| engine_class := String_; engine_args := []; engine_kwargs := [] |};
     _pydantic_model_type := Flag.Flag;
     _serializer :=
       function (_default_serializer (pydantic := Flag_pydantic) PydanticString);
     _deserializer :=
       function
         (_default_deserializer (pydantic := Flag_pydantic) PydanticString
            Flag.Flag) |}.

(** A callable object whose truth value is false: an instance of a class that
    defines [__call__] and whose [__len__] returns [0]. *)
Definition falsy_serializer : Callable PyExc Flag.t Any :=
  {| call := fun _ => Returns (PyStr "custom"); truthy := false |}.

(** An ordinary function passed as serializer. *)
Definition custom_serializer : Callable PyExc Flag.t Any :=
  function (fun _ => Returns (PyStr "custom")).

(** [PydanticJSON(Flag, serializer=custom_serializer)] *)
Definition Flag_custom_type : PydanticType PyExc Flag.t Flag.type :=
  {| class_of := PydanticJSON;
     impl :=
       TypeInstance
         {| engine_class := JSON; engine_args := []; engine_kwargs := [] |};
     _pydantic_model_type := Flag.Flag;
     _serializer := custom_serializer;
     _deserializer :=
       function
         (_default_deserializer (pydantic := Flag_pydantic) PydanticJSON
            Flag.Flag) |}.

(** An Alembic run against a database that accepts every call; the metadata,
    engine and connection are opaque tokens. *)
Definition sample_context (offline : bool)
  : EnvironmentContext PyExc Flag.t Flag.type unit unit unit :=
  {| config_file_name := Some "alembic.ini";
     config_ini_section := "alembic";
     get_main_option := fun option_name =>
       if option_name =? "sqlalchemy.url" then Some "sqlite:///database.db"
       else None;
     get_section := fun _ default =>
       ("sqlalchemy.url", "sqlite:///database.db") :: default;
     is_offline_mode := offline;
     configure := fun _ => Returns tt;
     begin_transaction := Returns tt;
     run_migrations := Returns tt;
     engine_from_config := fun _ _ _ => Returns tt;
     connect := fun _ => Returns tt |}.

(** ** The cached [type_adapter] property, over a sequence of reads *)

Section TypeAdapterCache.

Context {Exn Model ModelType : Type}.
Context {pydantic : Pydantic Exn Model ModelType}.

(** [self.type_adapter] is a [functools.cached_property]: the first access
    runs the body, which builds the [TypeAdapter], and stores the result in
    the instance; later accesses return the stored object.  [slot] is that
    place in the instance, empty until the first access; the number returned
    counts the [TypeAdapter]s built by the access. *)
Definition type_adapter_access (pydantic_model_type : ModelType)
  (slot : option (TypeAdapterOf ModelType))
  : nat * TypeAdapterOf ModelType * option (TypeAdapterOf ModelType) :=
  match slot with
  | Some cached => (0, cached, slot)
  | None =>
      let built := type_adapter pydantic_model_type in
      (1, built, Some built)
  end.

(** [BasePydanticType._default_deserializer], with the slot threaded. *)
Definition BasePydanticType_default_deserializer_cached
  (pydantic_model_type : ModelType) (value : Any)
  (slot : option (TypeAdapterOf ModelType))
  : nat * Outcome Exn Model * option (TypeAdapterOf ModelType) :=
  let '(built, adapter, slot') :=
    type_adapter_access pydantic_model_type slot in
  (built, validate_python adapter value, slot').

(** [process_result_value] of an adapter whose deserializer is that default
    ([BasePydanticType] or [PydanticJSON] built without [deserializer]). *)
Definition process_result_value_cached (pydantic_model_type : ModelType)
  (value : Any) (slot : option (TypeAdapterOf ModelType))
  : nat * Outcome Exn (option Model) * option (TypeAdapterOf ModelType) :=
  if is_None value then (0, Returns None, slot)
  else
    let '(built, r, slot') :=
      BasePydanticType_default_deserializer_cached pydantic_model_type value
        slot in
    (built, omap Some r, slot').

(** The column values of successive rows read through one adapter object:
    the [TypeAdapter]s built in all, the outcome of each read, and the slot at
    the end.  A read that raises leaves the object usable for the next one. *)
Fixpoint read_rows (pydantic_model_type : ModelType) (values : list Any)
  (slot : option (TypeAdapterOf ModelType))
  : nat * list (Outcome Exn (option Model)) * option (TypeAdapterOf ModelType) :=
  match values with
  | [] => (0, [], slot)
  | value :: rest =>
      let '(built, r, slot1) :=
        process_result_value_cached pydantic_model_type value slot in
      let '(built', rs, slot2) := read_rows pydantic_model_type rest slot1 in
      (built + built', r :: rs, slot2)
  end.

End TypeAdapterCache.

(** ** Reading the calls of an [env.py] run *)

Section EnvPyCalls.

Context {Exn Model ModelType MetaData Engine Connection : Type}.


(** The names [fileConfig] was called with. *)
Fixpoint fileConfig_calls
  (tr : list (EnvEvent Exn Model ModelType MetaData Engine Connection))
  : list string :=
  match tr with
  | [] => []
  | Call_fileConfig fname :: tr' => fname :: fileConfig_calls tr'
  | _ :: tr' => fileConfig_calls tr'
  end.

(** The calls the module body makes before it picks a runner. *)
Definition opening_calls (config_file_name : option string)
  : list (EnvEvent Exn Model ModelType MetaData Engine Connection) :=
  Call_set_main_option "sqlalchemy.url" "sqlite:///database.db"
  :: match config_file_name with
     | Some fname => [Call_fileConfig fname]
     | None => []
     end.

End EnvPyCalls.


(** [PydanticJSON(Flag, none_as_null=True)]: the keyword goes to the [JSON]
    held in [self.impl]. *)
Definition Flag_json_none_as_null : PydanticType PyExc Flag.t Flag.type :=
  {| class_of := PydanticJSON;
     impl :=
       TypeInstance
         {| engine_class := JSON; engine_args := [];
            engine_kwargs := [("none_as_null", PyBool true)] |};
     _pydantic_model_type := Flag.Flag;
     _serializer :=
       function (_default_serializer (pydantic := Flag_pydantic) PydanticJSON);
     _deserializer :=
       function
         (_default_deserializer (pydantic := Flag_pydantic) PydanticJSON
            Flag.Flag) |}.

(** * Properties of [main.py] *)

Section MainPyFacts.

Context {Exn Model ModelType : Type}.
Context {pydantic : Pydantic Exn Model ModelType}.
Context {sqlalchemy : SQLAlchemy Exn}.

Implicit Types (self : PydanticType Exn Model ModelType).
Implicit Types (dialect : Dialect) (cls : PydanticTypeClass).
Implicit Types (value v : Any) (m : Model).

(** What [__init__] leaves in the object it returns. *)
Lemma init_fields cls T args serializer deserializer kwargs self :
  __init__ cls T args serializer deserializer kwargs = Returns self ->
  class_of self = cls /\
  _pydantic_model_type self = T /\
  _serializer self = py_or serializer (function (_default_serializer cls)) /\
  _deserializer self =
    py_or deserializer (function (_default_deserializer cls T)) /\
  TypeDecorator__init__ (class_impl cls) args kwargs = Returns (impl self).
Proof.
  unfold __init__.
  destruct (TypeDecorator__init__ (class_impl cls) args kwargs) as [impl0|e];
    intros H; inversion H; subst; simpl.
  repeat split; reflexivity.
Qed.

Lemma py_or_None {A B : Type} (default : Callable Exn A B) :
  py_or None default = default.
Proof. reflexivity. Qed.

Lemma py_or_truthy {A B : Type} (f default : Callable Exn A B) :
  truthy f = true -> py_or (Some f) default = f.
Proof. intros H. simpl. now rewrite H. Qed.

Lemma py_or_falsy {A B : Type} (f default : Callable Exn A B) :
  truthy f = false -> py_or (Some f) default = default.
Proof. intros H. simpl. now rewrite H. Qed.

(** A non-[None] value goes to the stored serializer, and nowhere else. *)
Lemma process_bind_param_Some self m dialect :
  process_bind_param self (Some m) dialect =
    ([Call_serializer m], call (_serializer self) m).
Proof. reflexivity. Qed.

(** A non-[None] column value goes to the stored deserializer. *)
Lemma process_result_value_not_None self value dialect :
  is_None value = false ->
  process_result_value self value dialect =
    ([Call_deserializer value], omap Some (call (_deserializer self) value)).
Proof. intros H. unfold process_result_value. now rewrite H. Qed.

(** What [PydanticString._default_serializer] returns is a [str]. *)
Lemma PydanticString_default_serializer_str m v :
  PydanticString_default_serializer m = Returns v ->
  exists s, v = PyStr s /\ model_dump_json m = Returns s.
Proof.
  unfold PydanticString_default_serializer.
  destruct (model_dump_json m) as [s|e]; simpl; intros H; inversion H.
  now exists s.
Qed.

(** C1 (as amended): for an adapter built with the default serializer and
    deserializer, a model [m] whose serialized form [v] the library validates
    back to [m] is reconstructed by [process_result_value] from what
    [process_bind_param] stored, provided [v] is not [None]; for
    [PydanticString] the serialized form is a [str], so the proviso always
    holds. *)
Theorem default_round_trip cls T args kwargs self m v dialect :
  __init__ cls T args None None kwargs = Returns self ->
  _default_serializer cls m = Returns v ->
  _default_deserializer cls T v = Returns m ->
  cls = PydanticString \/ is_None v = false ->
  process_bind_param self (Some m) dialect = ([Call_serializer m], Returns v) /\
  process_result_value self v dialect =
    ([Call_deserializer v], Returns (Some m)).
Proof.
  intros Hinit Hser Hde Hnot.
  destruct (init_fields _ _ _ _ _ _ Hinit) as (_ & _ & Hs & Hd & _).
  rewrite py_or_None in Hs. rewrite py_or_None in Hd.
  assert (Hv : is_None v = false).
  { destruct Hnot as [-> | Hv]; [|exact Hv].
    simpl in Hser.
    destruct (PydanticString_default_serializer_str _ Hser) as (s & -> & _).
    reflexivity. }
  split.
  - rewrite process_bind_param_Some, Hs. simpl. now rewrite Hser.
  - rewrite process_result_value_not_None by exact Hv. rewrite Hd. simpl. now rewrite Hde.
Qed.

(** C2: [PydanticJSON.get_dialect_type_impl] returns the [JSONB] class when the
    dialect's name is ["postgresql"] and [self.impl] otherwise, so for an
    adapter whose [impl] is the generic [JSON] it returns [JSONB] exactly for
    that name; [BasePydanticType.get_dialect_type_impl] returns [self.impl]
    for every dialect.  A call on an object resolves to the former for a
    [PydanticJSON] and to the latter for the other classes. *)
Theorem get_dialect_type_impl_selection self dialect :
  PydanticJSON_get_dialect_type_impl self dialect =
    (if name dialect =? "postgresql" then TypeClass JSONB else impl self) /\
  (name dialect = "postgresql" ->
   PydanticJSON_get_dialect_type_impl self dialect = TypeClass JSONB) /\
  (name dialect <> "postgresql" ->
   PydanticJSON_get_dialect_type_impl self dialect = impl self) /\
  (impl_class (impl self) = JSON ->
   (PydanticJSON_get_dialect_type_impl self dialect = TypeClass JSONB <->
    name dialect = "postgresql")) /\
  BasePydanticType_get_dialect_type_impl self dialect = impl self /\
  (class_of self = PydanticJSON ->
   get_dialect_type_impl self dialect =
     PydanticJSON_get_dialect_type_impl self dialect) /\
  (class_of self <> PydanticJSON ->
   get_dialect_type_impl self dialect = impl self).
Proof.
  unfold PydanticJSON_get_dialect_type_impl, get_dialect_type_impl,
    BasePydanticType_get_dialect_type_impl.
  repeat split.
  - intros ->. reflexivity.
  - intros Hne. apply String.eqb_neq in Hne. now rewrite Hne.
  - destruct (name dialect =? "postgresql") eqn:E.
    + intros _. now apply String.eqb_eq.
    + intros Heq. rewrite Heq in H. discriminate H.
  - intros ->. reflexivity.
  - intros ->. reflexivity.
  - intros Hc. destruct (class_of self); [reflexivity | now elim Hc | reflexivity].
Qed.

(** C4: with the default serializer, a [PydanticJSON] binds a model to what
    [model.model_dump(mode="json")] gives and a [PydanticString] binds it to
    what [model.model_dump_json()] gives, which is a single [str]; in both
    cases the serializer is called once, on the model. *)
Theorem default_storage_representation T args kwargs deserializer m dialect :
  (forall self,
     __init__ PydanticJSON T args None deserializer kwargs = Returns self ->
     process_bind_param self (Some m) dialect =
       ([Call_serializer m], model_dump m "json")) /\
  (forall self,
     __init__ PydanticString T args None deserializer kwargs = Returns self ->
     process_bind_param self (Some m) dialect =
       ([Call_serializer m], omap PyStr (model_dump_json m)) /\
     forall v,
       outcome (process_bind_param self (Some m) dialect) = Returns v ->
       exists s, v = PyStr s /\ model_dump_json m = Returns s).
Proof.
  split; intros self Hinit;
    destruct (init_fields _ _ _ _ _ _ Hinit) as (_ & _ & Hs & _);
    rewrite py_or_None in Hs; rewrite process_bind_param_Some, Hs; simpl.
  - reflexivity.
  - split; [reflexivity|].
    intros v Hv. now apply PydanticString_default_serializer_str.
Qed.

(** C5: the default deserializer of [BasePydanticType], inherited by
    [PydanticJSON], is [TypeAdapter(pydantic_model_type).validate_python], and
    that of [PydanticString] is [pydantic_model_type.model_validate_json];
    an adapter built without a deserializer hands every non-[None] column
    value to it and passes on what it returns or raises, unchanged. *)
Theorem default_deserializer_delegates T v :
  BasePydanticType_default_deserializer T v =
    validate_python (TypeAdapter T) v /\
  _default_deserializer BasePydanticType T v =
    validate_python (TypeAdapter T) v /\
  _default_deserializer PydanticJSON T v = validate_python (TypeAdapter T) v /\
  _default_deserializer PydanticString T v = model_validate_json T v /\
  (forall cls args kwargs serializer self dialect,
     __init__ cls T args serializer None kwargs = Returns self ->
     is_None v = false ->
     process_result_value self v dialect =
       ([Call_deserializer v],
        omap Some
          match cls with
          | PydanticString => model_validate_json T v
          | BasePydanticType | PydanticJSON =>
              validate_python (TypeAdapter T) v
          end)).
Proof.
  repeat split.
  intros cls args kwargs serializer self dialect Hinit Hv.
  destruct (init_fields _ _ _ _ _ _ Hinit) as (_ & _ & _ & Hd & _).
  rewrite py_or_None in Hd.
  rewrite process_result_value_not_None by exact Hv. rewrite Hd.
  destruct cls; reflexivity.
Qed.

(** C6 (as amended): a non-[None] value is bound by the stored serializer and a
    non-[None] column value is read by the stored deserializer, each called
    once on the value; the stored callable is the constructor argument when
    that argument is true in a boolean context (every function is) and the
    class's default when it is [None] or false in a boolean context. *)
Theorem configured_serializers cls T args kwargs serializer deserializer self :
  __init__ cls T args serializer deserializer kwargs = Returns self ->
  (forall m dialect,
     process_bind_param self (Some m) dialect =
       ([Call_serializer m], call (_serializer self) m)) /\
  (forall v dialect,
     is_None v = false ->
     process_result_value self v dialect =
       ([Call_deserializer v], omap Some (call (_deserializer self) v))) /\
  _serializer self =
    match serializer with
    | Some f => if truthy f then f else function (_default_serializer cls)
    | None => function (_default_serializer cls)
    end /\
  _deserializer self =
    match deserializer with
    | Some f => if truthy f then f else function (_default_deserializer cls T)
    | None => function (_default_deserializer cls T)
    end /\
  (forall f, serializer = Some f -> truthy f = true -> _serializer self = f) /\
  (forall f, deserializer = Some f -> truthy f = true ->
             _deserializer self = f) /\
  (forall f, serializer = Some f -> truthy f = false ->
             _serializer self = function (_default_serializer cls)) /\
  (forall f, deserializer = Some f -> truthy f = false ->
             _deserializer self = function (_default_deserializer cls T)) /\
  (serializer = None -> _serializer self = function (_default_serializer cls)) /\
  (deserializer = None ->
   _deserializer self = function (_default_deserializer cls T)).
Proof.
  intros Hinit.
  destruct (init_fields _ _ _ _ _ _ Hinit) as (_ & _ & Hs & Hd & _).
  split; [intros; apply process_bind_param_Some|].
  split; [intros; now apply process_result_value_not_None|].
  split; [exact Hs|]. split; [exact Hd|].
  repeat split.
  - intros f -> Hf. rewrite Hs. now apply py_or_truthy.
  - intros f -> Hf. rewrite Hd. now apply py_or_truthy.
  - intros f -> Hf. rewrite Hs. now apply py_or_falsy.
  - intros f -> Hf. rewrite Hd. now apply py_or_falsy.
  - intros ->. exact Hs.
  - intros ->. exact Hd.
Qed.

(** C8: [None] passes through both directions for every adapter object and
    every dialect, with no call made; and whatever the column value, the
    deserializer is not called on [None]. *)
Theorem None_passthrough self dialect :
  process_bind_param self None dialect = ([], Returns PyNone) /\
  process_result_value self PyNone dialect = ([], Returns None) /\
  (forall (value : option Model) m,
     In (Call_serializer m) (calls (process_bind_param self value dialect)) ->
     value = Some m) /\
  (forall value,
     ~ In (Call_deserializer PyNone)
         (calls (process_result_value self value dialect))).
Proof.
  repeat split.
  - intros [m'|] m; simpl; [|tauto].
    intros [H|[]]. now inversion H.
  - intros value. unfold process_result_value.
    destruct (is_None value) eqn:E; simpl; [tauto|].
    intros [H|[]]. inversion H; subst. discriminate E.
Qed.

(** C9: the dialect argument has no influence on either conversion: the calls
    made and the outcome are the same for any two dialects. *)
Theorem dialect_noninterference self (d1 d2 : Dialect) :
  (forall value : option Model,
     process_bind_param self value d1 = process_bind_param self value d2) /\
  (forall value : Any,
     process_result_value self value d1 = process_result_value self value d2).
Proof. split; reflexivity. Qed.

(** C10: [load_dialect_impl] calls [dialect.type_descriptor] once, on an
    instance: the class instantiated with no arguments when
    [get_dialect_type_impl] returned a class, and the very instance when it
    returned one; it returns what [type_descriptor] returns. *)
Theorem load_dialect_impl_passes_instance self dialect :
  exists typeobj : Impl,
    load_dialect_impl self dialect =
      ([Call_type_descriptor dialect typeobj],
       Returns (type_descriptor dialect typeobj)) /\
    is_instance typeobj = true /\
    (forall c, get_dialect_type_impl self dialect = TypeClass c ->
       typeobj =
         TypeInstance
           {| engine_class := c; engine_args := []; engine_kwargs := [] |}) /\
    (forall t, get_dialect_type_impl self dialect = TypeInstance t ->
       typeobj = TypeInstance t).
Proof.
  unfold load_dialect_impl.
  destruct (get_dialect_type_impl self dialect) as [c|t]; simpl;
    eexists; (split; [reflexivity|]); (split; [reflexivity|]);
    split; intros x Hx; inversion Hx; reflexivity.
Qed.

End MainPyFacts.

(** * Properties of [migrations/env.py] *)

Section EnvPyFacts.

Context {Exn Model ModelType : Type}.
Context {pydantic : Pydantic Exn Model ModelType}.
Context {sqlalchemy : SQLAlchemy Exn}.
Context {alembic : Alembic Exn}.
Context {MetaData Engine Connection : Type}.
Variable target_metadata : MetaData.

Implicit Types (obj : PyObject Exn Model ModelType).
Implicit Types
  (ctx : EnvironmentContext Exn Model ModelType MetaData Engine Connection).

(** Case analysis on the outcome of each call a runner makes, outermost
    first. *)
Ltac case_outcomes ctx :=
  simpl;
  repeat match goal with
    | |- context [engine_from_config ctx ?c ?p ?k] =>
        destruct (engine_from_config ctx c p k); simpl
    | |- context [connect ctx ?e] => destruct (connect ctx e); simpl
    | |- context [configure ctx ?kw] =>
        destruct (configure ctx kw); simpl
    | |- context [begin_transaction ctx] =>
        destruct (begin_transaction ctx); simpl
    | |- context [run_migrations ctx] =>
        destruct (run_migrations ctx); simpl
    end.

Lemma omap_Rendered_not_False (r : Outcome Exn string) :
  omap Rendered r <> Returns PyFalse.
Proof. destruct r; simpl; discriminate. Qed.

(** C3: for an item of kind ["type"] that is a [BasePydanticType],
    [render_item] returns [_repr_type] of the type implementation: with a
    dialect in the autogen context, what [get_dialect_type_impl] gives for it
    (instantiated when it is a class), without one, [obj.impl_instance].  It
    returns [False] exactly for the other items. *)
Theorem render_item_hook type_ obj autogen_context :
  (forall self,
     type_ = "type" -> obj = Obj_PydanticType self ->
     render_item type_ obj autogen_context =
       match autogen_dialect autogen_context with
       | Some dialect =>
           omap Rendered
             (_repr_type
                (if callable (get_dialect_type_impl self dialect)
                 then call_no_args (get_dialect_type_impl self dialect)
                 else get_dialect_type_impl self dialect)
                autogen_context)
       | None =>
           omap Rendered
             (_repr_type
                (TypeInstance (TypeDecorator_impl_instance (impl self)))
                autogen_context)
       end) /\
  (render_item type_ obj autogen_context = Returns PyFalse <->
   ~ (type_ = "type" /\ isinstance_BasePydanticType obj = true)).
Proof.
  split.
  - intros self -> ->. reflexivity.
  - unfold render_item, isinstance_BasePydanticType.
    destruct (type_ =? "type") eqn:E.
    + apply String.eqb_eq in E. subst type_.
      destruct (as_BasePydanticType obj) as [self|].
      * split.
        -- destruct (autogen_dialect autogen_context); intros H;
             now apply omap_Rendered_not_False in H.
        -- intros H. elim H. now split.
      * split; [intros _ [_ H]; discriminate H | reflexivity].
    + apply String.eqb_neq in E.
      split; [intros _ [H _]; now elim E | reflexivity].
Qed.

Lemma configure_calls_app
  (tr1 tr2 : list (EnvEvent Exn Model ModelType MetaData Engine Connection)) :
  configure_calls (tr1 ++ tr2)%list =
    (configure_calls tr1 ++ configure_calls tr2)%list.
Proof.
  induction tr1 as [|ev tr1 IH]; [reflexivity|].
  destruct ev; simpl; now rewrite IH.
Qed.

Lemma offline_configure_calls ctx :
  configure_calls (calls (run_migrations_offline target_metadata ctx)) =
    [offline_kwargs target_metadata
       (get_main_option ctx "sqlalchemy.url")].
Proof.
  unfold run_migrations_offline, with_, bind, invoke, calls.
  case_outcomes ctx; reflexivity.
Qed.

Lemma online_configure_calls ctx :
  configure_calls (calls (run_migrations_online target_metadata ctx)) =
    match
      engine_from_config ctx
        (get_section ctx (config_ini_section ctx) [])
        "sqlalchemy." NullPool
    with
    | Returns connectable =>
        match connect ctx connectable with
        | Returns connection => [online_kwargs target_metadata connection]
        | Raises _ => []
        end
    | Raises _ => []
    end.
Proof.
  unfold run_migrations_online, with_, bind, invoke, calls.
  case_outcomes ctx; reflexivity.
Qed.

(** C7: both runners pass [render_item=render_item] to [context.configure]:
    the offline runner makes exactly one such call, the online runner makes
    exactly one once the engine is built and the connection is open, and no
    run of the script makes a [configure] call without the hook. *)
Theorem render_item_registered ctx :
  (exists kw,
     configure_calls (calls (run_migrations_offline target_metadata ctx)) =
       [kw] /\
     kw_render_item kw = Some render_item) /\
  (forall connectable connection,
     engine_from_config ctx
       (get_section ctx (config_ini_section ctx) [])
       "sqlalchemy." NullPool = Returns connectable ->
     connect ctx connectable = Returns connection ->
     exists kw,
       configure_calls (calls (run_migrations_online target_metadata ctx)) =
         [kw] /\
       kw_connection kw = Some connection /\
       kw_render_item kw = Some render_item) /\
  Forall (fun kw => kw_render_item kw = Some render_item)
    (configure_calls (calls (env_py target_metadata ctx))).
Proof.
  split; [|split].
  - eexists. split; [apply offline_configure_calls | reflexivity].
  - intros connectable connection He Hc.
    eexists. rewrite online_configure_calls, He, Hc.
    repeat split.
  - assert (Hrun :
      configure_calls (calls (env_py target_metadata ctx)) =
        if is_offline_mode ctx
        then configure_calls
               (calls (run_migrations_offline target_metadata ctx))
        else configure_calls
               (calls (run_migrations_online target_metadata ctx))).
    { unfold env_py, bind, invoke, ret, calls.
      destruct (config_file_name ctx); simpl;
        destruct (is_offline_mode ctx); simpl;
        [ destruct (run_migrations_offline target_metadata ctx)
        | destruct (run_migrations_online target_metadata ctx)
        | destruct (run_migrations_offline target_metadata ctx)
        | destruct (run_migrations_online target_metadata ctx) ];
        reflexivity. }
    rewrite Hrun.
    destruct (is_offline_mode ctx).
    + rewrite offline_configure_calls. repeat constructor.
    + rewrite online_configure_calls. case_outcomes ctx; repeat constructor.
Qed.

End EnvPyFacts.

(** * The adapter run on the sample implementations *)

(** What [__init__] returns for the sample adapters. *)
Lemma init_Flag_json_type :
  __init__ (pydantic := Flag_pydantic) (sqlalchemy := sample_sqlalchemy)
    PydanticJSON Flag.Flag [] None None [] = Returns Flag_json_type.
Proof. reflexivity. Qed.

Lemma init_Flag_string_type :
  __init__ (pydantic := Flag_pydantic) (sqlalchemy := sample_sqlalchemy)
    PydanticString Flag.Flag [] None None [] = Returns Flag_string_type.
Proof. reflexivity. Qed.

Lemma init_Flag_custom_type :
  __init__ (pydantic := Flag_pydantic) (sqlalchemy := sample_sqlalchemy)
    PydanticJSON Flag.Flag [] (Some custom_serializer) None [] =
    Returns Flag_custom_type.
Proof. reflexivity. Qed.

(** The sample library validates back every model it serialized, in both
    representations. *)
Lemma Flag_validate_dump (model : Flag.t) :
  Flag.validate (Flag.dump model) = Returns model /\
  Flag.validate_json (PyStr (Flag.dump_json model)) = Returns model.
Proof. destruct model as [[[|]|]]; split; reflexivity. Qed.

(** C1, on [Flag(True)]: stored as [True] by [PydanticJSON] and as the text
    [true] by [PydanticString], and read back as [Flag(True)] by both. *)
Lemma default_round_trip_witness :
  (process_bind_param Flag_json_type (Some (Flag.RootModel (Some true))) sqlite =
     ([Call_serializer (Flag.RootModel (Some true))], Returns (PyBool true)) /\
   process_result_value Flag_json_type (PyBool true) sqlite =
     ([Call_deserializer (PyBool true)],
      Returns (Some (Flag.RootModel (Some true))))) /\
  (process_bind_param Flag_string_type (Some (Flag.RootModel (Some true)))
     sqlite =
     ([Call_serializer (Flag.RootModel (Some true))], Returns (PyStr "true")) /\
   process_result_value Flag_string_type (PyStr "true") sqlite =
     ([Call_deserializer (PyStr "true")],
      Returns (Some (Flag.RootModel (Some true))))).
Proof.
  split.
  - apply (default_round_trip (pydantic := Flag_pydantic)
             (sqlalchemy := sample_sqlalchemy) (cls := PydanticJSON)
             Flag.Flag [] []).
    + reflexivity.
    + reflexivity.
    + reflexivity.
    + right. reflexivity.
  - apply (default_round_trip (pydantic := Flag_pydantic)
             (sqlalchemy := sample_sqlalchemy) (cls := PydanticString)
             Flag.Flag [] []).
    + reflexivity.
    + reflexivity.
    + reflexivity.
    + left. reflexivity.
Defined.

(** C1 as stated fails on [Flag(None)] under [PydanticJSON]: the library
    validates back everything it serializes, yet the model is serialized to
    [None], which [process_result_value] returns as [None] without calling the
    deserializer. *)
Lemma round_trip_lost_on_None_dump :
  __init__ (pydantic := Flag_pydantic) (sqlalchemy := sample_sqlalchemy)
    PydanticJSON Flag.Flag [] None None [] = Returns Flag_json_type /\
  (forall model mode v,
     model_dump (Pydantic := Flag_pydantic) model mode = Returns v ->
     validate_python (Pydantic := Flag_pydantic) (TypeAdapter Flag.Flag) v =
       Returns model) /\
  process_bind_param Flag_json_type (Some (Flag.RootModel None)) sqlite =
    ([Call_serializer (Flag.RootModel None)], Returns PyNone) /\
  process_result_value Flag_json_type PyNone sqlite = ([], Returns None) /\
  outcome (process_result_value Flag_json_type PyNone sqlite) <>
    Returns (Some (Flag.RootModel None)).
Proof.
  split; [reflexivity|].
  split.
  { intros model mode v H. simpl in H. inversion H; subst.
    apply Flag_validate_dump. }
  split; [reflexivity|].
  split; [reflexivity|].
  simpl. discriminate.
Qed.

(** C2, on [PydanticJSON(Flag)] and [PydanticString(Flag)] under the
    PostgreSQL and SQLite dialects. *)
Lemma get_dialect_type_impl_selection_witness :
  get_dialect_type_impl Flag_json_type postgresql = TypeClass JSONB /\
  get_dialect_type_impl Flag_json_type sqlite = impl Flag_json_type /\
  impl_class (get_dialect_type_impl Flag_json_type sqlite) = JSON /\
  get_dialect_type_impl Flag_string_type postgresql = impl Flag_string_type.
Proof.
  pose proof (get_dialect_type_impl_selection Flag_json_type postgresql)
    as (_ & Hpg & _ & _ & _ & Hjson & _).
  pose proof (get_dialect_type_impl_selection Flag_json_type sqlite)
    as (_ & _ & Hother & _ & _ & Hjson' & _).
  pose proof (get_dialect_type_impl_selection Flag_string_type postgresql)
    as (_ & _ & _ & _ & _ & _ & Hbase).
  split; [rewrite Hjson by reflexivity; apply Hpg; reflexivity|].
  split; [rewrite Hjson' by reflexivity; apply Hother; discriminate|].
  split; [reflexivity|].
  apply Hbase. discriminate.
Defined.

(** The dialect does select the column type of a [PydanticJSON]. *)
Example column_type_depends_on_dialect :
  get_dialect_type_impl Flag_json_type postgresql <>
  get_dialect_type_impl Flag_json_type sqlite.
Proof. discriminate. Qed.

(** C4, on [Flag(False)]. *)
Lemma default_storage_representation_witness :
  process_bind_param Flag_json_type (Some (Flag.RootModel (Some false))) sqlite =
    ([Call_serializer (Flag.RootModel (Some false))], Returns (PyBool false)) /\
  process_bind_param Flag_string_type (Some (Flag.RootModel (Some false)))
    sqlite =
    ([Call_serializer (Flag.RootModel (Some false))], Returns (PyStr "false")).
Proof.
  pose proof (default_storage_representation (pydantic := Flag_pydantic)
                (sqlalchemy := sample_sqlalchemy) Flag.Flag [] [] None
                (Flag.RootModel (Some false)) sqlite) as (Hjson & Hstr).
  split.
  - apply (Hjson Flag_json_type). reflexivity.
  - apply (Hstr Flag_string_type). reflexivity.
Defined.

(** C5, on the column values [True] and [true]; a value the library rejects
    raises the library's error. *)
Lemma default_deserializer_delegates_witness :
  process_result_value Flag_json_type (PyBool true) postgresql =
    ([Call_deserializer (PyBool true)],
     Returns (Some (Flag.RootModel (Some true)))) /\
  process_result_value Flag_string_type (PyStr "true") postgresql =
    ([Call_deserializer (PyStr "true")],
     Returns (Some (Flag.RootModel (Some true)))) /\
  process_result_value Flag_json_type (PyInt 7) postgresql =
    ([Call_deserializer (PyInt 7)], Raises ValidationError).
Proof.
  split; [|split].
  - apply (default_deserializer_delegates (pydantic := Flag_pydantic)
             (sqlalchemy := sample_sqlalchemy) Flag.Flag (PyBool true))
      with (cls := PydanticJSON) (args := []) (kwargs := [])
           (serializer := None);
      reflexivity.
  - apply (default_deserializer_delegates (pydantic := Flag_pydantic)
             (sqlalchemy := sample_sqlalchemy) Flag.Flag (PyStr "true"))
      with (cls := PydanticString) (args := []) (kwargs := [])
           (serializer := None);
      reflexivity.
  - apply (default_deserializer_delegates (pydantic := Flag_pydantic)
             (sqlalchemy := sample_sqlalchemy) Flag.Flag (PyInt 7))
      with (cls := PydanticJSON) (args := []) (kwargs := [])
           (serializer := None);
      reflexivity.
Defined.

(** C6, on [PydanticJSON(Flag, serializer=custom_serializer)]: the function
    passed is the one stored and called, and the deserializer, not passed, is
    the default one. *)
Lemma configured_serializers_witness :
  _serializer Flag_custom_type = custom_serializer /\
  _deserializer Flag_custom_type =
    function
      (_default_deserializer (pydantic := Flag_pydantic) PydanticJSON
         Flag.Flag) /\
  process_bind_param Flag_custom_type (Some (Flag.RootModel (Some true)))
    sqlite =
    ([Call_serializer (Flag.RootModel (Some true))], Returns (PyStr "custom")).
Proof.
  pose proof (configured_serializers (pydantic := Flag_pydantic)
                (sqlalchemy := sample_sqlalchemy) PydanticJSON Flag.Flag [] []
                (Some custom_serializer) None (self := Flag_custom_type)
                eq_refl) as (Hbind & _ & _ & _ & Hs & _ & _ & _ & _ & Hd).
  split; [apply Hs; reflexivity|].
  split; [apply Hd; reflexivity|].
  rewrite Hbind. reflexivity.
Defined.

(** C6 as stated fails on a serializer that is false in a boolean context:
    it is passed to [__init__], it is not [None], and yet the adapter stores
    and calls the default serializer. *)
Lemma falsy_serializer_not_used :
  exists self : PydanticType PyExc Flag.t Flag.type,
    __init__ (pydantic := Flag_pydantic) (sqlalchemy := sample_sqlalchemy)
      PydanticJSON Flag.Flag [] (Some falsy_serializer) None [] =
      Returns self /\
    _serializer self <> falsy_serializer /\
    _serializer self =
      function (_default_serializer (pydantic := Flag_pydantic) PydanticJSON) /\
    call falsy_serializer (Flag.RootModel (Some true)) =
      Returns (PyStr "custom") /\
    process_bind_param self (Some (Flag.RootModel (Some true))) sqlite =
      ([Call_serializer (Flag.RootModel (Some true))], Returns (PyBool true)).
Proof.
  exists Flag_json_type.
  split; [reflexivity|].
  split; [|repeat split].
  intros H. apply (f_equal (@truthy _ _ _)) in H. discriminate H.
Qed.

(** C10, on [PydanticJSON(Flag)]: under PostgreSQL the [JSONB] class is
    instantiated, under SQLite the [JSON] instance held in [self.impl] is
    passed as it is. *)
Lemma load_dialect_impl_passes_instance_witness :
  load_dialect_impl Flag_json_type postgresql =
    ([Call_type_descriptor postgresql
        (TypeInstance
           {| engine_class := JSONB; engine_args := [];
              engine_kwargs := [] |})],
     Returns
       {| engine_class := JSONB; engine_args := []; engine_kwargs := [] |}) /\
  load_dialect_impl Flag_json_type sqlite =
    ([Call_type_descriptor sqlite (impl Flag_json_type)],
     Returns {| engine_class := JSON; engine_args := []; engine_kwargs := [] |}).
Proof.
  split.
  - destruct (load_dialect_impl_passes_instance Flag_json_type postgresql)
      as (typeobj & Hrun & _ & Hclass & _).
    rewrite Hrun, (Hclass JSONB eq_refl). reflexivity.
  - destruct (load_dialect_impl_passes_instance Flag_json_type sqlite)
      as (typeobj & Hrun & _ & _ & Hinst).
    rewrite Hrun, (Hinst _ eq_refl). reflexivity.
Defined.

(** C3, on the sample Alembic: a [PydanticJSON] column renders as [JSONB]
    under PostgreSQL, as [JSON] under SQLite and without a dialect; an item
    that is not a type, and a type that is not an adapter, get [False]. *)
Lemma render_item_hook_witness :
  render_item (sqlalchemy := sample_sqlalchemy) (alembic := sample_alembic)
    "type" (Obj_PydanticType Flag_json_type)
    {| autogen_dialect := Some postgresql |} =
    Returns (Rendered "postgresql.JSONB()") /\
  render_item (sqlalchemy := sample_sqlalchemy) (alembic := sample_alembic)
    "type" (Obj_PydanticType Flag_json_type)
    {| autogen_dialect := Some sqlite |} = Returns (Rendered "sa.JSON()") /\
  render_item (sqlalchemy := sample_sqlalchemy) (alembic := sample_alembic)
    "type" (Obj_PydanticType Flag_string_type)
    {| autogen_dialect := None |} = Returns (Rendered "sa.String()") /\
  render_item (sqlalchemy := sample_sqlalchemy) (alembic := sample_alembic)
    "column" (Obj_PydanticType Flag_json_type)
    {| autogen_dialect := Some sqlite |} = Returns PyFalse /\
  render_item (sqlalchemy := sample_sqlalchemy) (alembic := sample_alembic)
    "type"
    (Obj_TypeEngine
       {| engine_class := String_; engine_args := []; engine_kwargs := [] |}
     : PyObject PyExc Flag.t Flag.type)
    {| autogen_dialect := Some sqlite |} = Returns PyFalse.
Proof.
  split; [|split; [|split; [|split]]].
  - rewrite (proj1 (render_item_hook (sqlalchemy := sample_sqlalchemy)
                      (alembic := sample_alembic) "type"
                      (Obj_PydanticType Flag_json_type)
                      {| autogen_dialect := Some postgresql |})
               Flag_json_type eq_refl eq_refl).
    reflexivity.
  - rewrite (proj1 (render_item_hook (sqlalchemy := sample_sqlalchemy)
                      (alembic := sample_alembic) "type"
                      (Obj_PydanticType Flag_json_type)
                      {| autogen_dialect := Some sqlite |})
               Flag_json_type eq_refl eq_refl).
    reflexivity.
  - rewrite (proj1 (render_item_hook (sqlalchemy := sample_sqlalchemy)
                      (alembic := sample_alembic) "type"
                      (Obj_PydanticType Flag_string_type)
                      {| autogen_dialect := None |})
               Flag_string_type eq_refl eq_refl).
    reflexivity.
  - apply (proj2 (render_item_hook (sqlalchemy := sample_sqlalchemy)
                    (alembic := sample_alembic) "column"
                    (Obj_PydanticType Flag_json_type)
                    {| autogen_dialect := Some sqlite |})).
    intros [H _]. discriminate H.
  - apply (proj2 (render_item_hook (sqlalchemy := sample_sqlalchemy)
                    (alembic := sample_alembic) "type" _
                    {| autogen_dialect := Some sqlite |})).
    intros [_ H]. discriminate H.
Defined.

(** C7, on the sample Alembic run: offline and online, the one
    [context.configure] call carries the hook. *)
Lemma render_item_registered_witness :
  (exists kw,
     configure_calls
       (calls
          (env_py (sqlalchemy := sample_sqlalchemy) (alembic := sample_alembic)
             tt (sample_context true))) = [kw] /\
     kw_render_item kw =
       Some (render_item (sqlalchemy := sample_sqlalchemy)
               (alembic := sample_alembic))) /\
  (exists kw,
     configure_calls
       (calls
          (run_migrations_online (sqlalchemy := sample_sqlalchemy)
             (alembic := sample_alembic) tt (sample_context false))) = [kw] /\
     kw_connection kw = Some tt /\
     kw_render_item kw =
       Some (render_item (sqlalchemy := sample_sqlalchemy)
               (alembic := sample_alembic))).
Proof.
  split.
  - destruct (render_item_registered (sqlalchemy := sample_sqlalchemy)
                (alembic := sample_alembic) tt (sample_context true))
      as ((kw & Hcalls & Hkw) & _ & _).
    exists kw. split; [exact Hcalls | exact Hkw].
  - destruct (render_item_registered (sqlalchemy := sample_sqlalchemy)
                (alembic := sample_alembic) tt (sample_context false))
      as (_ & Honline & _).
    apply (Honline tt tt); reflexivity.
Defined.

(** * Further properties of [main.py] *)

Section MainPyMore.

Context {Exn Model ModelType : Type}.
Context {pydantic : Pydantic Exn Model ModelType}.
Context {sqlalchemy : SQLAlchemy Exn}.

Implicit Types (self : PydanticType Exn Model ModelType).
Implicit Types (dialect : Dialect) (cls : PydanticTypeClass).
Implicit Types (v : Any) (m : Model).

Lemma omap_Some_inv (r : Outcome Exn Model) m :
  omap Some r = Returns (Some m) -> r = Returns m.
Proof. destruct r; simpl; intros H; inversion H; reflexivity. Qed.

Lemma omap_Some_not_None (r : Outcome Exn Model) :
  omap Some r <> Returns None.
Proof. destruct r; simpl; discriminate. Qed.

(** X1: when the stored serializer returns [v] for a model [m], binding [m]
    gives [v], and reading [v] back gives [m] exactly when [v] is not [None]
    and the stored deserializer returns [m] for it.  This holds for every
    adapter object, whatever serializer and deserializer it stores. *)
Theorem model_round_trip_iff self m v dialect :
  call (_serializer self) m = Returns v ->
  outcome (process_bind_param self (Some m) dialect) = Returns v /\
  (outcome (process_result_value self v dialect) = Returns (Some m) <->
   is_None v = false /\ call (_deserializer self) v = Returns m).
Proof.
  intros Hser. split; [exact Hser|].
  unfold process_result_value, outcome.
  destruct (is_None v) eqn:Hv; simpl.
  - split; [discriminate | intros [H _]; discriminate H].
  - split.
    + intros H. split; [reflexivity | now apply omap_Some_inv].
    + intros [_ H]. now rewrite H.
Qed.

(** X2: a column value read and bound again is unchanged, [None] included,
    as soon as the stored serializer undoes the stored deserializer on the
    value when it is not [None]. *)
Theorem column_round_trip self v dialect :
  (is_None v = false ->
   exists m,
     call (_deserializer self) v = Returns m /\
     call (_serializer self) m = Returns v) ->
  exists value : option Model,
    outcome (process_result_value self v dialect) = Returns value /\
    outcome (process_bind_param self value dialect) = Returns v.
Proof.
  intros H. unfold process_result_value.
  destruct (is_None v) eqn:Hv.
  - exists None. split; [reflexivity|].
    destruct v; try discriminate Hv. reflexivity.
  - destruct (H eq_refl) as (m & Hd & Hs).
    exists (Some m). simpl. rewrite Hd. split; [reflexivity | exact Hs].
Qed.

(** X3: under a dialect named ["postgresql"], a [PydanticJSON] hands
    [type_descriptor] a [JSONB] built with no arguments, whatever its
    [self.impl] is: the arguments the adapter was constructed with, kept in
    [self.impl], do not reach the PostgreSQL column type. *)
Theorem PydanticJSON_postgresql_bare_JSONB self dialect :
  class_of self = PydanticJSON ->
  name dialect = "postgresql" ->
  load_dialect_impl self dialect =
    ([Call_type_descriptor dialect
        (TypeInstance
           {| engine_class := JSONB; engine_args := [];
              engine_kwargs := [] |})],
     Returns
       (type_descriptor dialect
          (TypeInstance
             {| engine_class := JSONB; engine_args := [];
                engine_kwargs := [] |}))).
Proof.
  intros Hc Hn.
  unfold load_dialect_impl, get_dialect_type_impl,
    PydanticJSON_get_dialect_type_impl.
  rewrite Hc, Hn. reflexivity.
Qed.

(** ** The cached [TypeAdapter] *)

Lemma read_rows_cached T (values : list Any) :
  read_rows T values (Some (TypeAdapter T)) =
    (0,
     map (fun v =>
            if is_None v then Returns None
            else omap Some (validate_python (TypeAdapter T) v))
       values,
     Some (TypeAdapter T)).
Proof.
  induction values as [|v values IH]; [reflexivity|].
  cbn [read_rows map]. unfold process_result_value_cached.
  destruct (is_None v); cbn; rewrite IH; reflexivity.
Qed.

Lemma read_rows_empty_slot T (values : list Any) :
  read_rows T values None =
    (if forallb is_None values then 0 else 1,
     map (fun v =>
            if is_None v then Returns None
            else omap Some (validate_python (TypeAdapter T) v))
       values,
     if forallb is_None values then None else Some (TypeAdapter T)).
Proof.
  induction values as [|v values IH]; [reflexivity|].
  cbn [read_rows map forallb]. unfold process_result_value_cached.
  destruct (is_None v); cbn.
  - rewrite IH. destruct (forallb is_None values); reflexivity.
  - unfold type_adapter. rewrite read_rows_cached. reflexivity.
Qed.

(** X4: over any sequence of column values read through one adapter object
    that uses the default deserializer of [BasePydanticType] (or
    [PydanticJSON]), the [TypeAdapter] is built once, at the first value that
    is not [None], and not at all when every value is [None]; each read has the
    outcome [process_result_value] gives for it. *)
Theorem type_adapter_built_once cls T args kwargs serializer self dialect
  (values : list Any) :
  __init__ cls T args serializer None kwargs = Returns self ->
  cls <> PydanticString ->
  read_rows T values None =
    (if forallb is_None values then 0 else 1,
     map (fun v => outcome (process_result_value self v dialect)) values,
     if forallb is_None values then None else Some (TypeAdapter T)).
Proof.
  intros Hinit Hcls.
  destruct (init_fields _ _ _ _ _ _ Hinit) as (_ & _ & _ & Hd & _).
  rewrite py_or_None in Hd.
  rewrite read_rows_empty_slot.
  f_equal. f_equal.
  apply map_ext. intros v.
  unfold process_result_value, outcome.
  destruct (is_None v); [reflexivity|]. simpl. rewrite Hd.
  destruct cls; [reflexivity | reflexivity | now elim Hcls].
Qed.

End MainPyMore.

(** * Further properties of [migrations/env.py] *)

Section EnvPyMore.

Context {Exn Model ModelType : Type}.
Context {pydantic : Pydantic Exn Model ModelType}.
Context {sqlalchemy : SQLAlchemy Exn}.
Context {alembic : Alembic Exn}.
Context {MetaData Engine Connection : Type}.
Variable target_metadata : MetaData.

Implicit Types (self : PydanticType Exn Model ModelType).
Implicit Types
  (ctx : EnvironmentContext Exn Model ModelType MetaData Engine Connection).

(** X5: with a dialect in the autogen context, the type [render_item] renders
    for an adapter is the very object [load_dialect_impl] hands to
    [type_descriptor] for that dialect, and it is an instance: the migration
    names the column type the engine will use. *)
Theorem render_item_matches_load_dialect_impl self dialect autogen_context :
  autogen_dialect autogen_context = Some dialect ->
  exists typeobj : Impl,
    load_dialect_impl self dialect =
      ([Call_type_descriptor dialect typeobj],
       Returns (type_descriptor dialect typeobj)) /\
    is_instance typeobj = true /\
    render_item "type" (Obj_PydanticType self) autogen_context =
      omap Rendered (_repr_type typeobj autogen_context).
Proof.
  intros Hd. unfold render_item, load_dialect_impl. simpl. rewrite Hd.
  eexists. split; [reflexivity|]. split; [|reflexivity].
  destruct (get_dialect_type_impl self dialect); reflexivity.
Qed.

(** X6: the column type loaded and the migration source rendered depend on
    the adapter only through its class and its [impl]: changing the pydantic
    model type, the serializer or the deserializer changes neither. *)
Theorem column_type_ignores_model_and_serializers
  self1 self2 dialect type_ autogen_context :
  class_of self1 = class_of self2 ->
  impl self1 = impl self2 ->
  load_dialect_impl self1 dialect = load_dialect_impl self2 dialect /\
  render_item type_ (Obj_PydanticType self1) autogen_context =
    render_item type_ (Obj_PydanticType self2) autogen_context.
Proof.
  intros Hc Hi.
  assert (Hg : forall d,
            get_dialect_type_impl self1 d = get_dialect_type_impl self2 d).
  { intros d. unfold get_dialect_type_impl,
      PydanticJSON_get_dialect_type_impl,
      BasePydanticType_get_dialect_type_impl.
    now rewrite Hc, Hi. }
  split.
  - unfold load_dialect_impl. now rewrite Hg.
  - unfold render_item. destruct (type_ =? "type"); [|reflexivity]. simpl.
    destruct (autogen_dialect autogen_context) as [d|].
    + now rewrite Hg.
    + now rewrite Hi.
Qed.

(** The calls and outcome of each runner, by the outcome of each call. *)
Lemma run_migrations_offline_cases ctx :
  run_migrations_offline target_metadata ctx =
    let kw :=
      offline_kwargs target_metadata (get_main_option ctx "sqlalchemy.url") in
    match configure ctx kw with
    | Raises e => ([Call_configure kw], Raises e)
    | Returns _ =>
        match begin_transaction ctx with
        | Raises e => ([Call_configure kw; Call_begin_transaction], Raises e)
        | Returns _ =>
            ([Call_configure kw; Call_begin_transaction; Call_run_migrations;
              Exit_transaction],
             run_migrations ctx)
        end
    end.
Proof.
  unfold run_migrations_offline, with_, bind, invoke. simpl.
  destruct (configure ctx _); [|reflexivity].
  destruct (begin_transaction ctx); reflexivity.
Qed.

Lemma run_migrations_online_cases ctx :
  run_migrations_online target_metadata ctx =
    let configuration := get_section ctx (config_ini_section ctx) [] in
    let built := Call_engine_from_config configuration "sqlalchemy." NullPool in
    match engine_from_config ctx configuration "sqlalchemy." NullPool with
    | Raises e => ([built], Raises e)
    | Returns connectable =>
        match connect ctx connectable with
        | Raises e => ([built; Call_connect connectable], Raises e)
        | Returns connection =>
            let kw := online_kwargs target_metadata connection in
            match configure ctx kw with
            | Raises e =>
                ([built; Call_connect connectable; Call_configure kw;
                  Exit_connection],
                 Raises e)
            | Returns _ =>
                match begin_transaction ctx with
                | Raises e =>
                    ([built; Call_connect connectable; Call_configure kw;
                      Call_begin_transaction; Exit_connection],
                     Raises e)
                | Returns _ =>
                    ([built; Call_connect connectable; Call_configure kw;
                      Call_begin_transaction; Call_run_migrations;
                      Exit_transaction; Exit_connection],
                     run_migrations ctx)
                end
            end
        end
    end.
Proof.
  unfold run_migrations_online, with_, bind, invoke. simpl.
  destruct (engine_from_config ctx _ _ _) as [connectable|]; [|reflexivity].
  simpl. destruct (connect ctx connectable) as [connection|]; [|reflexivity].
  simpl. destruct (configure ctx _); [|reflexivity].
  simpl. destruct (begin_transaction ctx); reflexivity.
Qed.

(** The script is its two opening calls followed by the runner of its mode. *)
Lemma env_py_cases ctx :
  env_py target_metadata ctx =
    let opening := opening_calls (config_file_name ctx) in
    let run :=
      if is_offline_mode ctx then run_migrations_offline target_metadata ctx
      else run_migrations_online target_metadata ctx in
    ((opening ++ calls run)%list, outcome run).
Proof.
  unfold env_py, opening_calls, bind, invoke, ret, calls, outcome. simpl.
  destruct (config_file_name ctx); simpl;
    destruct (if is_offline_mode ctx
              then run_migrations_offline target_metadata ctx
              else run_migrations_online target_metadata ctx);
    reflexivity.
Qed.








(** X11: a run that finishes without raising made every call of its mode,
    in order, each once: offline, [configure], the transaction around
    [run_migrations]; online, the engine and the connection first and the
    connection's exit last. *)
Theorem successful_run_calls ctx :
  outcome (env_py target_metadata ctx) = Returns tt ->
  (is_offline_mode ctx = true /\
   calls (env_py target_metadata ctx) =
     (opening_calls (config_file_name ctx) ++
      [Call_configure
         (offline_kwargs target_metadata
            (get_main_option ctx "sqlalchemy.url"));
       Call_begin_transaction; Call_run_migrations; Exit_transaction])%list) \/
  (is_offline_mode ctx = false /\
   exists connectable connection,
     engine_from_config ctx (get_section ctx (config_ini_section ctx) [])
       "sqlalchemy." NullPool = Returns connectable /\
     connect ctx connectable = Returns connection /\
     calls (env_py target_metadata ctx) =
       (opening_calls (config_file_name ctx) ++
        [Call_engine_from_config
           (get_section ctx (config_ini_section ctx) []) "sqlalchemy."
           NullPool;
         Call_connect connectable;
         Call_configure (online_kwargs target_metadata connection);
         Call_begin_transaction; Call_run_migrations; Exit_transaction;
         Exit_connection])%list).
Proof.
  rewrite !env_py_cases. cbv zeta. unfold calls, outcome.
  destruct (is_offline_mode ctx).
  - rewrite run_migrations_offline_cases. cbv zeta.
    destruct (configure ctx _); [|discriminate].
    destruct (begin_transaction ctx); [|discriminate].
    intros _. left. split; reflexivity.
  - rewrite run_migrations_online_cases. cbv zeta.
    destruct (engine_from_config ctx _ _ _) as [connectable|];
      [|discriminate].
    destruct (connect ctx connectable) as [connection|] eqn:Hc;
      [|discriminate].
    destruct (configure ctx _); [|discriminate].
    destruct (begin_transaction ctx); [|discriminate].
    intros _. right. split; [reflexivity|].
    exists connectable, connection. repeat split. exact Hc.
Qed.

End EnvPyMore.

(** * The further properties on the sample implementations *)

(** X1, on [Flag(True)] under [PydanticJSON(Flag)]. *)
Lemma model_round_trip_iff_witness :
  outcome
    (process_bind_param Flag_json_type (Some (Flag.RootModel (Some true)))
       sqlite) = Returns (PyBool true) /\
  outcome (process_result_value Flag_json_type (PyBool true) sqlite) =
    Returns (Some (Flag.RootModel (Some true))).
Proof.
  destruct (model_round_trip_iff Flag_json_type
              (Flag.RootModel (Some true)) (v := PyBool true) sqlite eq_refl)
    as (Hbind & Hread).
  split; [exact Hbind|].
  apply Hread. split; reflexivity.
Defined.

(** X2, on the column values [None] and [False] under [PydanticJSON(Flag)]. *)
Lemma column_round_trip_witness :
  (exists value,
     outcome (process_result_value Flag_json_type PyNone sqlite) =
       Returns value /\
     outcome (process_bind_param Flag_json_type value sqlite) =
       Returns PyNone) /\
  (exists value,
     outcome (process_result_value Flag_json_type (PyBool false) sqlite) =
       Returns value /\
     outcome (process_bind_param Flag_json_type value sqlite) =
       Returns (PyBool false)).
Proof.
  split.
  - apply column_round_trip. intros H. discriminate H.
  - apply column_round_trip. intros _.
    exists (Flag.RootModel (Some false)). split; reflexivity.
Defined.

(** X3, on [PydanticJSON(Flag, none_as_null=True)]: the keyword is in
    [self.impl] and absent from what PostgreSQL gets. *)
Lemma PydanticJSON_postgresql_bare_JSONB_witness :
  engine_kwargs (sample_type_descriptor (impl Flag_json_none_as_null)) =
    [("none_as_null", PyBool true)] /\
  load_dialect_impl Flag_json_none_as_null postgresql =
    ([Call_type_descriptor postgresql
        (TypeInstance
           {| engine_class := JSONB; engine_args := [];
              engine_kwargs := [] |})],
     Returns
       {| engine_class := JSONB; engine_args := []; engine_kwargs := [] |}).
Proof.
  split; [reflexivity|].
  rewrite (PydanticJSON_postgresql_bare_JSONB Flag_json_none_as_null
             postgresql eq_refl eq_refl).
  reflexivity.
Defined.

(** X4, on five rows: the adapter is built at the second row, the third row
    raises, and the rows after it are read with the adapter already built. *)
Lemma type_adapter_built_once_witness :
  read_rows (pydantic := Flag_pydantic) Flag.Flag
    [PyNone; PyBool true; PyInt 7; PyNone; PyBool false] None =
    (1,
     [Returns None; Returns (Some (Flag.RootModel (Some true)));
      Raises ValidationError; Returns None;
      Returns (Some (Flag.RootModel (Some false)))],
     Some (TypeAdapter Flag.Flag)) /\
  read_rows (pydantic := Flag_pydantic) Flag.Flag [PyNone; PyNone] None =
    (0, [Returns None; Returns None], None).
Proof.
  split.
  - rewrite (type_adapter_built_once (pydantic := Flag_pydantic)
               (sqlalchemy := sample_sqlalchemy) (cls := PydanticJSON)
               Flag.Flag [] [] None (self := Flag_json_type) sqlite).
    + reflexivity.
    + reflexivity.
    + discriminate.
  - rewrite (type_adapter_built_once (pydantic := Flag_pydantic)
               (sqlalchemy := sample_sqlalchemy) (cls := PydanticJSON)
               Flag.Flag [] [] None (self := Flag_json_type) sqlite).
    + reflexivity.
    + reflexivity.
    + discriminate.
Defined.

(** X5, on [PydanticJSON(Flag)] with PostgreSQL in the autogen context. *)
Lemma render_item_matches_load_dialect_impl_witness :
  exists typeobj : Impl,
    load_dialect_impl Flag_json_type postgresql =
      ([Call_type_descriptor postgresql typeobj],
       Returns (type_descriptor postgresql typeobj)) /\
    is_instance typeobj = true /\
    render_item (sqlalchemy := sample_sqlalchemy) (alembic := sample_alembic)
      "type" (Obj_PydanticType Flag_json_type)
      {| autogen_dialect := Some postgresql |} =
      omap Rendered
        (_repr_type (Alembic := sample_alembic) typeobj
           {| autogen_dialect := Some postgresql |}).
Proof.
  apply (render_item_matches_load_dialect_impl (sqlalchemy := sample_sqlalchemy)
           (alembic := sample_alembic) Flag_json_type
           {| autogen_dialect := Some postgresql |} eq_refl).
Defined.

(** X6, on [PydanticJSON(Flag)] with and without a custom serializer. *)
Lemma column_type_ignores_model_and_serializers_witness :
  load_dialect_impl Flag_json_type sqlite =
    load_dialect_impl Flag_custom_type sqlite /\
  render_item (sqlalchemy := sample_sqlalchemy) (alembic := sample_alembic)
    "type" (Obj_PydanticType Flag_json_type)
    {| autogen_dialect := Some postgresql |} =
    render_item (sqlalchemy := sample_sqlalchemy) (alembic := sample_alembic)
      "type" (Obj_PydanticType Flag_custom_type)
      {| autogen_dialect := Some postgresql |}.
Proof.
  apply (column_type_ignores_model_and_serializers
           (sqlalchemy := sample_sqlalchemy) (alembic := sample_alembic)
           Flag_json_type Flag_custom_type sqlite "type"
           {| autogen_dialect := Some postgresql |} eq_refl eq_refl).
Defined.



(** X11, on the sample offline run. *)
Lemma successful_run_calls_witness :
  calls
    (env_py (sqlalchemy := sample_sqlalchemy) (alembic := sample_alembic) tt
       (sample_context true)) =
    [Call_set_main_option "sqlalchemy.url" "sqlite:///database.db";
     Call_fileConfig "alembic.ini";
     Call_configure
       (offline_kwargs (sqlalchemy := sample_sqlalchemy)
          (alembic := sample_alembic) tt (Some "sqlite:///database.db"));
     Call_begin_transaction; Call_run_migrations; Exit_transaction].
Proof.
  destruct (successful_run_calls (sqlalchemy := sample_sqlalchemy)
              (alembic := sample_alembic) tt (sample_context true) eq_refl)
    as [[_ H] | [H _]].
  - exact H.
  - discriminate H.
Defined.
